(** * Repository bootstrap ([node.Init]) of go-filecoin

    A shallow embedding of [internal/app/go-filecoin/node/init.go]: the
    option builders, [Init], [initPeerKey], [initDefaultKey] and
    [importInitKeys], over a state-and-error monad in which the effects of a
    failed call stay applied, as they do in the Go code. *)

From Stdlib Require Import ZArith.
From stdpp Require Import base option strings gmap list fin_maps.

Local Open Scope Z_scope.
Local Open Scope string_scope.
Local Open Scope list_scope.

(** ** Errors

    [github.com/pkg/errors]: an error is a message, or a cause wrapped
    with a message. *)

Inductive error : Type :=
| New (msg : string)
| Wrap (cause : error) (msg : string).

(** The message printed for an error ([Error()]): the wrapping
    messages, outermost first. *)
Fixpoint Error (e : error) : string :=
  match e with
  | New m => m
  | Wrap c m => m +:+ ": " +:+ Error c
  end.

Definition result (A : Type) : Type := error + A.

Global Instance error_eq_dec : EqDecision error.
Proof. solve_decision. Defined.

(** ** Stateful, fallible computations

    A Go function that works on a store through a handle and returns
    [(value, error)] is a function from the store to a result and the store
    it leaves behind.  The store is returned on failure too: nothing is
    rolled back. *)

Definition M (S A : Type) : Type := S → result A * S.

Definition ret {S A} (a : A) : M S A := λ s, (inr a, s).

Definition bind {S A B} (m : M S A) (f : A → M S B) : M S B :=
  λ s, match m s with
       | (inl e, s') => (inl e, s')
       | (inr a, s') => f a s'
       end.

(** [errors.Wrap(err, msg)] on the error path of a call. *)
Definition wrap {S A} (msg : string) (m : M S A) : M S A :=
  λ s, match m s with
       | (inl e, s') => (inl (Wrap e msg), s')
       | (inr a, s') => (inr a, s')
       end.

(** A pure fallible call that touches no store. *)
Definition lift {S A} (r : result A) : M S A := λ s, (r, s).

(** Runs a computation on one component of a larger state: the handle
    returned by an accessor such as [r.Keystore()] aliases that component. *)
Definition zoom {S T A} (get : T → S) (set : S → T → T) (m : M S A) : M T A :=
  λ t, let '(r, s') := m (get t) in (r, set s' t).

Definition modify {S} (f : S → S) : M S unit := λ s, (inr (), f s).

Notation "'do' x <- m ; k" := (bind m (λ x, k))
  (at level 10, x name, m at level 100, k at level 200).
Notation "'do' '_' <- m ; k" := (bind m (λ _, k))
  (at level 10, m at level 100, k at level 200).

(** ** libp2p key types ([crypto.RSA] and its siblings) *)

Inductive KeyType : Type := RSA | Ed25519 | Secp256k1 | ECDSA.

Definition defaultPeerKeyBits : Z := 2048.

(** The alias of the node's network identity in the key store. *)
Definition self : string := "self".

Section node.

(** The types declared outside [init.go]: libp2p private keys, wallet
    key records, addresses, chain blocks, and the configuration fields
    other than the wallet's default address. *)
Context {PrivKey KeyInfo Addr Block Rest : Type}.
Context `{Countable Addr}.

(** *** Configuration *)

(** Modelled from the spec: the configuration object ([config.Config],
    declared outside [init.go]), of which [Init] assigns the field
    [Wallet.DefaultAddress]; [Other] stands for every other field. *)
Record Configuration : Type := mkConfig {
  Wallet_DefaultAddress : Addr;
  Other : Rest
}.

Definition set_DefaultAddress (a : Addr) (c : Configuration) : Configuration :=
  {| Wallet_DefaultAddress := a; Other := Other c |}.

(** *** The repository *)

(** Modelled from the spec: the chain datastore behind [r.Datastore()]:
    the blocks written through the storage views, and the reference to the
    genesis state once it is installed. *)
Record ChainStore : Type := mkChainStore {
  Blocks : list Block;
  Genesis : option Block
}.

(** Modelled from the spec: the repository ([repo.Repo], an interface
    declared outside [init.go]) "owns a key-value datastore (chain data),
    a key store (identity keys), a wallet datastore (spending keys), and
    a mutable configuration object with a replace-whole-object
    persistence operation".  [Config] is the in-memory object that
    [r.Config()] points to, [Persisted] the configuration on disk, and
    [ConfigWrites] the number of whole-object writes made to it. *)
Record Repo : Type := mkRepo {
  Datastore : ChainStore;
  Keystore : gmap string PrivKey;
  WalletDatastore : gmap Addr KeyInfo;
  Config : Configuration;
  Persisted : Configuration;
  ConfigWrites : nat
}.

Definition set_Datastore (d : ChainStore) (r : Repo) : Repo :=
  {| Datastore := d; Keystore := Keystore r;
     WalletDatastore := WalletDatastore r; Config := Config r;
     Persisted := Persisted r; ConfigWrites := ConfigWrites r |}.

Definition set_Keystore (k : gmap string PrivKey) (r : Repo) : Repo :=
  {| Datastore := Datastore r; Keystore := k;
     WalletDatastore := WalletDatastore r; Config := Config r;
     Persisted := Persisted r; ConfigWrites := ConfigWrites r |}.

Definition set_WalletDatastore (w : gmap Addr KeyInfo) (r : Repo) : Repo :=
  {| Datastore := Datastore r; Keystore := Keystore r;
     WalletDatastore := w; Config := Config r;
     Persisted := Persisted r; ConfigWrites := ConfigWrites r |}.

Definition set_Config (c : Configuration) (r : Repo) : Repo :=
  {| Datastore := Datastore r; Keystore := Keystore r;
     WalletDatastore := WalletDatastore r; Config := c;
     Persisted := Persisted r; ConfigWrites := ConfigWrites r |}.

Definition set_Blocks (b : list Block) (d : ChainStore) : ChainStore :=
  {| Blocks := b; Genesis := Genesis d |}.

(** *** The collaborators

    What the code of [init.go] cannot decide: the outcome of key
    generation, of address derivation, and of every read and write of a
    store.  Each may depend on the store it is called on. *)

Record Env : Type := mkEnv {
  (** [crypto.GenerateKeyPair(typ, bits)] *)
  GenerateKeyPair : KeyType → Z → result PrivKey;
  (** [KeyInfo.Address()]: fails on malformed key material *)
  Address : KeyInfo → result Addr;
  (** the key record the wallet would generate next *)
  generate_key : gmap Addr KeyInfo → result KeyInfo;
  (** failure of [Keystore.Put] *)
  keystore_fault : gmap string PrivKey → string → PrivKey → option error;
  (** failure to persist the genesis state *)
  genesis_fault : ChainStore → Block → option error;
  (** failure of [wallet.NewDSBackend] *)
  backend_fault : gmap Addr KeyInfo → option error;
  (** failure to persist a key record in the wallet datastore *)
  wallet_fault : gmap Addr KeyInfo → Addr → KeyInfo → option error;
  (** failure of [Repo.ReplaceConfig] *)
  config_fault : Configuration → option error
}.

Variable E : Env.

(** Modelled from the spec: [Keystore.Put] of go-ipfs-keystore, absent
    from the sources.  "Stored under one fixed alias [...] no uniqueness
    is enforced — writes overwrite." *)
Definition Put (name : string) (k : PrivKey) : M (gmap string PrivKey) unit :=
  λ s, match keystore_fault E s name k with
       | Some e => (inl e, s)
       | None => (inr (), <[name := k]> s)
       end.

(** Modelled from the spec: [consensus.GenesisInitFunc], the genesis
    computation supplied by the caller; it writes blocks through the two
    storage views and yields the genesis block or an error. *)
Definition GenesisInitFunc : Type := M (list Block) Block.

(** Modelled from the spec: [chain.Init], absent from the sources.
    "Installs genesis chain state and returns a reference to it (or
    propagates the genesis function's error, or a storage-persistence
    error, wrapped)." *)
Definition chain_Init (gen : GenesisInitFunc) : M ChainStore Block :=
  do g <- zoom Blocks set_Blocks gen;
  wrap "failed to persist genesis block in chain store"
    (λ d, match genesis_fault E d g with
          | Some e => (inl e, d)
          | None => (inr g, {| Blocks := Blocks d; Genesis := Some g |})
          end).

(** Modelled from the spec: [wallet.NewDSBackend], absent from the
    sources.  "Open the wallet backend bound to the repository's wallet
    datastore."  Opening reads the datastore and writes nothing. *)
Definition NewDSBackend : M (gmap Addr KeyInfo) unit :=
  λ w, match backend_fault E w with
       | Some e => (inl e, w)
       | None => (inr (), w)
       end.

(** Modelled from the spec: the wallet backend's write of one key
    record, under its address, in the wallet datastore. *)
Definition putKeyInfo (a : Addr) (ki : KeyInfo) : M (gmap Addr KeyInfo) unit :=
  λ w, match wallet_fault E w a ki with
       | Some e => (inl e, w)
       | None => (inr (), <[a := ki]> w)
       end.

(** Modelled from the spec: [Wallet.Import], absent from the sources.
    "The wallet validates and derives its address, then persists it." *)
Definition Import (ki : KeyInfo) : M (gmap Addr KeyInfo) Addr :=
  do a <- lift (Address E ki);
  do _ <- putKeyInfo a ki;
  ret a.

(** Modelled from the spec: [Wallet.NewKeyInfo], absent from the
    sources.  "Ask the wallet to generate a new key record (the wallet
    assigns and persists its address)." *)
Definition NewKeyInfo : M (gmap Addr KeyInfo) KeyInfo :=
  do ki <- (λ w, (generate_key E w, w));
  do a <- lift (Address E ki);
  do _ <- putKeyInfo a ki;
  ret ki.

(** Modelled from the spec: [Repo.ReplaceConfig], absent from the
    sources.  "replaceConfig(configuration) -> error (whole-object
    persistence)": the object given becomes the repository's
    configuration object and, unless the write fails, the whole of it
    replaces the configuration on disk. *)
Definition ReplaceConfig (cfg : Configuration) : M Repo unit :=
  λ r, match config_fault E cfg with
       | Some e => (inl e, set_Config cfg r)
       | None =>
           (inr (), {| Datastore := Datastore r; Keystore := Keystore r;
                       WalletDatastore := WalletDatastore r; Config := cfg;
                       Persisted := cfg;
                       ConfigWrites := S (ConfigWrites r) |})
       end.

(** *** [init.go] *)

Record initCfg : Type := mkInitCfg {
  peerKey : option PrivKey;
  defaultKey : option KeyInfo;
  initImports : list KeyInfo
}.

Definition InitOpt : Type := initCfg → initCfg.

(** [new(initCfg)]: every field at its zero value. *)
Definition new_initCfg : initCfg :=
  {| peerKey := None; defaultKey := None; initImports := [] |}.

Definition PeerKeyOpt (k : option PrivKey) : InitOpt :=
  λ opts, {| peerKey := k; defaultKey := defaultKey opts;
             initImports := initImports opts |}.

Definition DefaultKeyOpt (ki : option KeyInfo) : InitOpt :=
  λ opts, {| peerKey := peerKey opts; defaultKey := ki;
             initImports := initImports opts |}.

(** The record appended is a record: a nil pointer, which the wallet
    would have to dereference, is left out of the model. *)
Definition ImportKeyOpt (ki : KeyInfo) : InitOpt :=
  λ opts, {| peerKey := peerKey opts; defaultKey := defaultKey opts;
             initImports := initImports opts ++ [ki] |}.

(** [for _, o := range opts { o(cfg) }] *)
Definition applyOpts (opts : list InitOpt) : initCfg :=
  fold_left (λ cfg o, o cfg) opts new_initCfg.

Definition initPeerKey (key : option PrivKey) : M (gmap string PrivKey) unit :=
  do key <- match key with
            | None =>
                wrap "failed to create peer key"
                  (lift (GenerateKeyPair E RSA defaultPeerKeyBits))
            | Some k => ret k
            end;
  wrap "failed to store private key" (Put self key).

Definition initDefaultKey (key : option KeyInfo) : M (gmap Addr KeyInfo) KeyInfo :=
  match key with
  | None => wrap "failed to create default key" NewKeyInfo
  | Some ki =>
      do _ <- wrap "failed to import default key" (Import ki);
      ret ki
  end.

Fixpoint importInitKeys (importKeys : list KeyInfo) : M (gmap Addr KeyInfo) unit :=
  match importKeys with
  | [] => ret ()
  | ki :: rest =>
      do _ <- Import ki;
      importInitKeys rest
  end.

Definition Init (gen : GenesisInitFunc) (opts : list InitOpt) : M Repo unit :=
  let cfg := applyOpts opts in
  do _ <- wrap "Could not Init Node"
            (zoom Datastore set_Datastore (chain_Init gen));
  do _ <- zoom Keystore set_Keystore (initPeerKey (peerKey cfg));
  do _ <- wrap "failed to open wallet datastore"
            (zoom WalletDatastore set_WalletDatastore NewDSBackend);
  do defaultKey <- zoom WalletDatastore set_WalletDatastore
                     (initDefaultKey (defaultKey cfg));
  do _ <- zoom WalletDatastore set_WalletDatastore
            (importInitKeys (initImports cfg));
  do defaultAddress <- wrap "failed to extract address from default key"
                         (lift (Address E defaultKey));
  do _ <- modify (λ r, set_Config (set_DefaultAddress defaultAddress (Config r)) r);
  do cfg' <- (λ r, (inr (Config r), r));
  wrap "failed to write config" (ReplaceConfig cfg').

(** The wallet datastore after the records of a list were written, in
    list order, each under its address. *)
Definition stored (l : list KeyInfo) (w : gmap Addr KeyInfo) : gmap Addr KeyInfo :=
  fold_left (λ w ki, match Address E ki with
                     | inr a => <[a := ki]> w
                     | inl _ => w
                     end) l w.

(** *** Vocabulary of the properties *)

(** A repository as the caller creates it for [Init]: no identity key
    and no wallet key yet. *)
Definition valid_repo (r : Repo) : Prop :=
  Keystore r = ∅ ∧ WalletDatastore r = ∅.

(** Collaborators that work: both key generators produce a key (the
    wallet's one with a derivable address) and no store access fails. *)
Record healthy : Prop := mkHealthy {
  healthy_peer_key : ∃ k, GenerateKeyPair E RSA defaultPeerKeyBits = inr k;
  healthy_wallet_key : ∀ w, ∃ ki a, generate_key E w = inr ki ∧ Address E ki = inr a;
  healthy_keystore : ∀ s name k, keystore_fault E s name k = None;
  healthy_genesis : ∀ d g, genesis_fault E d g = None;
  healthy_backend : ∀ w, backend_fault E w = None;
  healthy_wallet : ∀ w a ki, wallet_fault E w a ki = None;
  healthy_config : ∀ c, config_fault E c = None
}.

(** The places where [init.go] wraps an error, and the message each
    of them gives to [errors.Wrap]. *)
Inductive Stage : Type :=
| InstallGenesis
| CreatePeerKey
| StorePeerKey
| OpenWallet
| CreateDefaultKey
| ImportDefaultKey
| DeriveAddress
| WriteConfig.

Definition stage_message (st : Stage) : string :=
  match st with
  | InstallGenesis => "Could not Init Node"
  | CreatePeerKey => "failed to create peer key"
  | StorePeerKey => "failed to store private key"
  | OpenWallet => "failed to open wallet datastore"
  | CreateDefaultKey => "failed to create default key"
  | ImportDefaultKey => "failed to import default key"
  | DeriveAddress => "failed to extract address from default key"
  | WriteConfig => "failed to write config"
  end.

(** [Init] from its first line to the derivation of the default
    address (lines 59 to 92), and its last step, the configuration commit
    (lines 93 to 96).  [Init] is the first followed by the second. *)
Definition Init_provision (gen : GenesisInitFunc) (opts : list InitOpt) : M Repo Addr :=
  let cfg := applyOpts opts in
  do _ <- wrap "Could not Init Node"
            (zoom Datastore set_Datastore (chain_Init gen));
  do _ <- zoom Keystore set_Keystore (initPeerKey (peerKey cfg));
  do _ <- wrap "failed to open wallet datastore"
            (zoom WalletDatastore set_WalletDatastore NewDSBackend);
  do defaultKey <- zoom WalletDatastore set_WalletDatastore
                     (initDefaultKey (defaultKey cfg));
  do _ <- zoom WalletDatastore set_WalletDatastore
            (importInitKeys (initImports cfg));
  wrap "failed to extract address from default key"
    (lift (Address E defaultKey)).

Definition Init_commit (defaultAddress : Addr) : M Repo unit :=
  do _ <- modify (λ r, set_Config (set_DefaultAddress defaultAddress (Config r)) r);
  do cfg' <- (λ r, (inr (Config r), r));
  wrap "failed to write config" (ReplaceConfig cfg').

End node.

Arguments Configuration : clear implicits.
Arguments ChainStore : clear implicits.
Arguments GenesisInitFunc : clear implicits.
Arguments initCfg : clear implicits.
Arguments InitOpt : clear implicits.
Arguments Repo PrivKey KeyInfo Addr Block Rest {_ _}.
Arguments Env PrivKey KeyInfo Addr Block Rest {_ _}.
Arguments stored : simpl never.

Global Instance KeyType_eq_dec : EqDecision KeyType.
Proof. solve_decision. Defined.

(** ** Calls of the option builders

    [InitOpt] values are closures; a list of the builder calls that made
    them says which options were given, and in which order. *)

Section calls.

Context {PrivKey KeyInfo : Type}.

Inductive OptCall : Type :=
| CallPeerKeyOpt (k : option PrivKey)
| CallDefaultKeyOpt (ki : option KeyInfo)
| CallImportKeyOpt (ki : KeyInfo).

Definition option_of (c : OptCall) : InitOpt PrivKey KeyInfo :=
  match c with
  | CallPeerKeyOpt k => PeerKeyOpt k
  | CallDefaultKeyOpt ki => DefaultKeyOpt ki
  | CallImportKeyOpt ki => ImportKeyOpt ki
  end.

(** The arguments of the calls of each builder, in call order. *)
Definition peer_keys (cs : list OptCall) : list (option PrivKey) :=
  omap (λ c, match c with CallPeerKeyOpt k => Some k | _ => None end) cs.

Definition default_keys (cs : list OptCall) : list (option KeyInfo) :=
  omap (λ c, match c with CallDefaultKeyOpt ki => Some ki | _ => None end) cs.

Definition import_keys (cs : list OptCall) : list KeyInfo :=
  omap (λ c, match c with CallImportKeyOpt ki => Some ki | _ => None end) cs.

End calls.

Arguments OptCall : clear implicits.

(** ** Environments that differ in one collaborator *)

Section environments.

Context {PrivKey KeyInfo Addr Block Rest : Type}.
Context `{Countable Addr}.

(** [E] with another peer key generator. *)
Definition with_GenerateKeyPair (f : KeyType → Z → result PrivKey)
    (E : Env PrivKey KeyInfo Addr Block Rest) : Env PrivKey KeyInfo Addr Block Rest :=
  {| GenerateKeyPair := f;
     Address := Address E;
     generate_key := generate_key E;
     keystore_fault := keystore_fault E;
     genesis_fault := genesis_fault E;
     backend_fault := backend_fault E;
     wallet_fault := wallet_fault E;
     config_fault := config_fault E |}.

(** [E] with another wallet key generator. *)
Definition with_generate_key (f : gmap Addr KeyInfo → result KeyInfo)
    (E : Env PrivKey KeyInfo Addr Block Rest) : Env PrivKey KeyInfo Addr Block Rest :=
  {| GenerateKeyPair := GenerateKeyPair E;
     Address := Address E;
     generate_key := f;
     keystore_fault := keystore_fault E;
     genesis_fault := genesis_fault E;
     backend_fault := backend_fault E;
     wallet_fault := wallet_fault E;
     config_fault := config_fault E |}.

(** A key record whose address can be derived. *)
Definition well_formed (E : Env PrivKey KeyInfo Addr Block Rest) (ki : KeyInfo) : Prop :=
  ∃ a, Address E ki = inr a.

End environments.

(** ** A simulated environment

    Keys, key records, addresses and blocks are strings.  The key generators
    are deterministic, a key record with empty key material is malformed,
    and the wallet backend and the configuration write fail on demand. *)

Module Sim.

Definition address (ki : string) : result string :=
  if decide (ki = "") then inl (New "invalid key material")
  else inr ("f1" +:+ ki).

Definition env (open_err write_err : option error)
  : Env string string string string string :=
  {| GenerateKeyPair := λ typ bits,
       if decide (typ = RSA ∧ bits = 2048%Z) then inr "rsa-2048-peer-key"
       else inl (New "unsupported key");
     Address := address;
     generate_key := λ _, inr "generated";
     keystore_fault := λ _ _ _, None;
     genesis_fault := λ _ _, None;
     backend_fault := λ _, open_err;
     wallet_fault := λ _ _ _, None;
     config_fault := λ _, write_err |}.

(** Nothing fails. *)
Definition ok : Env string string string string string := env None None.

Definition gen : GenesisInitFunc string :=
  λ blocks, (inr "genesis", "genesis" :: blocks).

Definition gen_fails : GenesisInitFunc string :=
  λ blocks, (inl (New "no genesis"), blocks).

(** A freshly created repository: empty stores, default configuration
    in memory and on disk. *)
Definition fresh : Repo string string string string string :=
  {| Datastore := {| Blocks := []; Genesis := None |};
     Keystore := ∅;
     WalletDatastore := ∅;
     Config := {| Wallet_DefaultAddress := ""; Other := "api=:3453" |};
     Persisted := {| Wallet_DefaultAddress := ""; Other := "api=:3453" |};
     ConfigWrites := 0 |}.

(** Option lists: no option at all, a supplied default key record,
    and two import records of which the second, or the first, is
    malformed. *)
Definition no_opts : list (InitOpt string string) := [].

Definition default_d : list (InitOpt string string) :=
  [DefaultKeyOpt (Some "d")].



Definition bad_middle : list (InitOpt string string) :=
  [ImportKeyOpt "k1"; ImportKeyOpt ""; ImportKeyOpt "k2"].

(** A repository that was initialised before: an identity key, a
    second key store entry and a wallet key are there. *)
Definition used : Repo string string string string string :=
  {| Datastore := {| Blocks := ["genesis"]; Genesis := Some "genesis" |};
     Keystore := {["self" := "old-peer-key"; "backup" := "cold-key"]};
     WalletDatastore := {["f1old" := "old"]};
     Config := {| Wallet_DefaultAddress := "f1old"; Other := "api=:9999" |};
     Persisted := {| Wallet_DefaultAddress := "f1old"; Other := "api=:3453" |};
     ConfigWrites := 1 |}.

(** Environments whose peer key generator, or wallet key generator,
    fails. *)
Definition no_peer_key : Env string string string string string :=
  with_GenerateKeyPair (λ _ _, inl (New "no entropy")) ok.

Definition no_wallet_key : Env string string string string string :=
  with_generate_key (λ _, inl (New "no entropy")) ok.

(** Builder calls: two peer keys, two default key records and two
    import records, interleaved. *)
Definition calls : list (OptCall string string) :=
  [ CallImportKeyOpt "k1";
    CallPeerKeyOpt (Some "p1");
    CallDefaultKeyOpt (Some "d1");
    CallPeerKeyOpt (Some "p2");
    CallImportKeyOpt "k2";
    CallDefaultKeyOpt (Some "d2") ].

Definition peer_p : list (InitOpt string string) :=
  [PeerKeyOpt (Some "p")].

Definition bad_default : list (InitOpt string string) :=
  [DefaultKeyOpt (Some ""); ImportKeyOpt "k1"].

Definition good_imports : list (InitOpt string string) :=
  [DefaultKeyOpt (Some "d"); ImportKeyOpt "k1"; ImportKeyOpt "k2"].

End Sim.

(** ** Properties *)

Section node_facts.

Context {PrivKey KeyInfo Addr Block Rest : Type}.
Context `{Countable Addr}.
Variable E : Env PrivKey KeyInfo Addr Block Rest.

Implicit Types (r : Repo PrivKey KeyInfo Addr Block Rest).
Implicit Types (w : gmap Addr KeyInfo) (store : gmap string PrivKey).
Implicit Types (ki : KeyInfo) (k : PrivKey) (a : Addr) (e : error).
Implicit Types (gen : GenesisInitFunc Block).
Implicit Types (opts : list (InitOpt PrivKey KeyInfo)).

(** *** The monad *)

Lemma bind_inr {S A B} (m : M S A) (f : A → M S B) s b s' :
  bind m f s = (inr b, s') ↔ ∃ x s1, m s = (inr x, s1) ∧ f x s1 = (inr b, s').
Proof.
  unfold bind. destruct (m s) as [[e|x] s1]; split.
  - discriminate.
  - intros (x & s2 & Hm & _). discriminate.
  - eauto.
  - intros (x' & s2 & Hm & Hf). by simplify_eq.
Qed.

Lemma bind_inl {S A B} (m : M S A) (f : A → M S B) s e s' :
  bind m f s = (inl e, s') ↔
  m s = (inl e, s') ∨ ∃ x s1, m s = (inr x, s1) ∧ f x s1 = (inl e, s').
Proof.
  unfold bind. destruct (m s) as [[e0|x] s1]; split.
  - intros ?; simplify_eq. by left.
  - intros [?|(x & s2 & Hm & _)]; by simplify_eq.
  - intros Hf. right. eauto.
  - intros [?|(x' & s2 & Hm & Hf)]; by simplify_eq.
Qed.

Lemma wrap_inr {S A} msg (m : M S A) s x s' :
  wrap msg m s = (inr x, s') ↔ m s = (inr x, s').
Proof. unfold wrap. destruct (m s) as [[e|y] s1]; simpl; split; intros ?; by simplify_eq. Qed.

Lemma wrap_inl {S A} msg (m : M S A) s e s' :
  wrap msg m s = (inl e, s') ↔ ∃ c, e = Wrap c msg ∧ m s = (inl c, s').
Proof.
  unfold wrap. destruct (m s) as [[e0|y] s1]; split.
  - intros ?; simplify_eq. eauto.
  - intros (c & -> & ?). by simplify_eq.
  - discriminate.
  - intros (c & _ & ?). discriminate.
Qed.

(** *** Options *)

Lemma applyOpts_snoc opts (o : InitOpt PrivKey KeyInfo) :
  applyOpts (opts ++ [o]) = o (applyOpts opts).
Proof. unfold applyOpts. by rewrite fold_left_app. Qed.



(** *** The peer key *)

Lemma initPeerKey_eq key store :
  initPeerKey E key store =
  match
    match key with
    | Some k => inr k
    | None =>
        match GenerateKeyPair E RSA 2048 with
        | inl e => inl (Wrap e "failed to create peer key")
        | inr k => inr k
        end
    end
  with
  | inl e => (inl e, store)
  | inr k =>
      match keystore_fault E store "self" k with
      | Some e => (inl (Wrap e "failed to store private key"), store)
      | None => (inr (), <["self" := k]> store)
      end
  end.
Proof.
  unfold initPeerKey, bind, wrap, lift, ret, Put, self, defaultPeerKeyBits.
  destruct key as [k|]; [|destruct (GenerateKeyPair E RSA 2048) as [e|k]];
    try done; by destruct (keystore_fault E store "self" k).
Qed.

(** *** The wallet *)

Lemma Import_eq ki w :
  Import E ki w =
  match Address E ki with
  | inl e => (inl e, w)
  | inr a =>
      match wallet_fault E w a ki with
      | Some e => (inl e, w)
      | None => (inr a, <[a := ki]> w)
      end
  end.
Proof.
  unfold Import, bind, lift, ret, putKeyInfo.
  destruct (Address E ki) as [e|a]; [done|].
  by destruct (wallet_fault E w a ki).
Qed.

Lemma Import_inr ki w a w' :
  Import E ki w = (inr a, w') → Address E ki = inr a ∧ w' = <[a := ki]> w.
Proof.
  rewrite Import_eq. destruct (Address E ki) as [e|a0]; [done|].
  destruct (wallet_fault E w a0 ki); [done|]. by intros ?; simplify_eq.
Qed.

Lemma Import_inl ki w e w' : Import E ki w = (inl e, w') → w' = w.
Proof.
  rewrite Import_eq. destruct (Address E ki) as [e0|a0]; [congruence|].
  destruct (wallet_fault E w a0 ki); congruence.
Qed.

Lemma NewKeyInfo_inr w ki w' :
  NewKeyInfo E w = (inr ki, w') →
  generate_key E w = inr ki ∧ ∃ a, Address E ki = inr a ∧ w' = <[a := ki]> w.
Proof.
  unfold NewKeyInfo, bind, lift, ret, putKeyInfo.
  destruct (generate_key E w) as [e|ki0]; [done|].
  destruct (Address E ki0) as [e|a] eqn:Ha; [done|].
  destruct (wallet_fault E w a ki0); [done|].
  intros ?; simplify_eq. eauto.
Qed.

Lemma initDefaultKey_inr key w ki w' :
  initDefaultKey E key w = (inr ki, w') →
  match key with
  | Some ki0 => ki = ki0
  | None => generate_key E w = inr ki
  end ∧ ∃ a, Address E ki = inr a ∧ w' = <[a := ki]> w.
Proof.
  unfold initDefaultKey. destruct key as [ki0|].
  - intros (a & w1 & Hi%wrap_inr & Hr)%bind_inr.
    unfold ret in Hr. simplify_eq.
    apply Import_inr in Hi as [? ?]. eauto.
  - intros Hn%wrap_inr. by apply NewKeyInfo_inr in Hn.
Qed.

Lemma stored_cons ki (l : list KeyInfo) w :
  stored E (ki :: l) w =
  stored E l match Address E ki with
             | inr a => <[a := ki]> w
             | inl _ => w
             end.
Proof. reflexivity. Qed.

Lemma importInitKeys_app (l1 l2 : list KeyInfo) w :
  importInitKeys E (l1 ++ l2) w =
  match importInitKeys E l1 w with
  | (inl e, w1) => (inl e, w1)
  | (inr _, w1) => importInitKeys E l2 w1
  end.
Proof.
  revert w. induction l1 as [|ki l1 IH]; intros w; simpl; [done|].
  unfold bind. destruct (Import E ki w) as [[e|a] w1]; [done|]. apply IH.
Qed.

Lemma importInitKeys_inr (l : list KeyInfo) w w' :
  importInitKeys E l w = (inr (), w') →
  w' = stored E l w ∧ Forall (λ ki, ∃ a, Address E ki = inr a) l.
Proof.
  revert w. induction l as [|ki l IH]; intros w; simpl.
  - unfold ret. intros ?; simplify_eq. by split.
  - intros (a & w1 & [Ha ->]%Import_inr & Hl)%bind_inr.
    apply IH in Hl as [-> Hl]. rewrite stored_cons, Ha.
    split; [done|]. constructor; eauto.
Qed.

(** A failing run of the loop: a first failing record, everything
    before it imported, the wallet left as it was when it failed. *)
Lemma importInitKeys_inl (l : list KeyInfo) w e w' :
  importInitKeys E l w = (inl e, w') →
  ∃ pre ki post,
    l = pre ++ ki :: post ∧
    importInitKeys E pre w = (inr (), w') ∧
    Import E ki w' = (inl e, w').
Proof.
  revert w. induction l as [|ki l IH]; intros w; simpl; [done|].
  intros [Hi|(a & w1 & Hi & Hl)]%bind_inl.
  - pose proof (Import_inl _ _ _ _ Hi) as ->.
    by exists [], ki, l.
  - apply IH in Hl as (pre & kj & post & -> & Hpre & Hj).
    exists (ki :: pre), kj, post. split; [done|]. split; [|done].
    simpl. apply bind_inr. eauto.
Qed.

Lemma stored_lookup_other (l : list KeyInfo) w a :
  inr a ∉ Address E <$> l → stored E l w !! a = w !! a.
Proof.
  revert w. induction l as [|ki l IH]; intros w Hn; [done|].
  rewrite fmap_cons, not_elem_of_cons in Hn. destruct Hn as [Hne Hn].
  rewrite stored_cons.
  destruct (Address E ki) as [e|a0] eqn:Ha; [by apply IH|].
  rewrite IH by done. apply lookup_insert_ne. congruence.
Qed.

Lemma stored_lookup (l : list KeyInfo) w ki a :
  NoDup (Address E <$> l) → ki ∈ l → Address E ki = inr a →
  stored E l w !! a = Some ki.
Proof.
  revert w. induction l as [|kj l IH]; intros w Hnd Hin Ha.
  - by apply elem_of_nil in Hin.
  - rewrite fmap_cons in Hnd. apply NoDup_cons in Hnd as [Hnotin Hnd].
    rewrite stored_cons.
    apply elem_of_cons in Hin as [<-|Hin].
    + rewrite Ha in Hnotin |- *. rewrite stored_lookup_other by done.
      apply lookup_insert_eq.
    + by apply IH.
Qed.

Lemma stored_mono (l : list KeyInfo) w a :
  is_Some (w !! a) → is_Some (stored E l w !! a).
Proof.
  revert w. induction l as [|kj l IH]; intros w Hw; [done|].
  rewrite stored_cons. apply IH.
  destruct (Address E kj) as [e|b]; [done|].
  destruct (decide (b = a)) as [->|Hne].
  - rewrite lookup_insert_eq. eauto.
  - by rewrite lookup_insert_ne.
Qed.

Lemma stored_dom (l : list KeyInfo) w ki a :
  ki ∈ l → Address E ki = inr a → is_Some (stored E l w !! a).
Proof.
  revert w. induction l as [|kj l IH]; intros w Hin Ha.
  - by apply elem_of_nil in Hin.
  - rewrite stored_cons.
    apply elem_of_cons in Hin as [<-|Hin]; [|by apply IH].
    rewrite Ha. apply stored_mono. rewrite lookup_insert_eq. eauto.
Qed.


(** *** Genesis installation *)

Lemma chain_Init_eq gen (d : ChainStore Block) :
  chain_Init E gen d =
  match gen (Blocks d) with
  | (inl e, bs) => (inl e, set_Blocks bs d)
  | (inr g, bs) =>
      match genesis_fault E (set_Blocks bs d) g with
      | Some e =>
          (inl (Wrap e "failed to persist genesis block in chain store"),
           set_Blocks bs d)
      | None => (inr g, {| Blocks := bs; Genesis := Some g |})
      end
  end.
Proof.
  unfold chain_Init, bind, zoom, wrap.
  destruct (gen (Blocks d)) as [[e|g] bs]; [done|].
  by destruct (genesis_fault E (set_Blocks bs d) g).
Qed.

Lemma chain_Init_inr gen (d d' : ChainStore Block) g :
  chain_Init E gen d = (inr g, d') → Genesis d' = Some g.
Proof.
  rewrite chain_Init_eq. destruct (gen (Blocks d)) as [[e|g0] bs]; [done|].
  destruct (genesis_fault E (set_Blocks bs d) g0); [done|].
  by intros ?; simplify_eq.
Qed.

Lemma initPeerKey_inr key store store' :
  initPeerKey E key store = (inr (), store') →
  ∃ k, match key with
       | Some k0 => k = k0
       | None => GenerateKeyPair E RSA 2048 = inr k
       end ∧ keystore_fault E store "self" k = None ∧
       store' = <["self" := k]> store.
Proof.
  rewrite initPeerKey_eq. destruct key as [k0|].
  - destruct (keystore_fault E store "self" k0) eqn:Hf; [done|].
    intros ?; simplify_eq. eauto.
  - destruct (GenerateKeyPair E RSA 2048) as [e|k]; [done|].
    destruct (keystore_fault E store "self" k) eqn:Hf; [done|].
    intros ?; simplify_eq. eauto.
Qed.

(** *** [Init], stage by stage

    The outcome of [Init] in terms of the outcome of each of its stages:
    the first stage that fails decides the error, and the repository
    keeps what the stages before it wrote. *)

Lemma Init_eq gen opts r :
  Init E gen opts r =
  let cfg := applyOpts opts in
  match chain_Init E gen (Datastore r) with
  | (inl e, d) => (inl (Wrap e "Could not Init Node"), set_Datastore d r)
  | (inr _, d) =>
  match initPeerKey E (peerKey cfg) (Keystore r) with
  | (inl e, ks) =>
      (inl e, mkRepo d ks (WalletDatastore r) (Config r) (Persisted r) (ConfigWrites r))
  | (inr _, ks) =>
  match backend_fault E (WalletDatastore r) with
  | Some e =>
      (inl (Wrap e "failed to open wallet datastore"),
       mkRepo d ks (WalletDatastore r) (Config r) (Persisted r) (ConfigWrites r))
  | None =>
  match initDefaultKey E (defaultKey cfg) (WalletDatastore r) with
  | (inl e, w1) =>
      (inl e, mkRepo d ks w1 (Config r) (Persisted r) (ConfigWrites r))
  | (inr dk, w1) =>
  match importInitKeys E (initImports cfg) w1 with
  | (inl e, w2) =>
      (inl e, mkRepo d ks w2 (Config r) (Persisted r) (ConfigWrites r))
  | (inr _, w2) =>
  match Address E dk with
  | inl e =>
      (inl (Wrap e "failed to extract address from default key"),
       mkRepo d ks w2 (Config r) (Persisted r) (ConfigWrites r))
  | inr a =>
  let c := set_DefaultAddress a (Config r) in
  match config_fault E c with
  | Some e =>
      (inl (Wrap e "failed to write config"),
       mkRepo d ks w2 c (Persisted r) (ConfigWrites r))
  | None => (inr (), mkRepo d ks w2 c c (S (ConfigWrites r)))
  end end end end end end end.
Proof.
  unfold Init, bind, wrap, zoom, modify, lift, NewDSBackend, ReplaceConfig; simpl.
  destruct (chain_Init E gen (Datastore r)) as [[e|g] d]; simpl; [done|].
  destruct (initPeerKey E _ (Keystore r)) as [[e|[]] ks]; simpl; [done|].
  destruct (backend_fault E (WalletDatastore r)); simpl; [done|].
  destruct (initDefaultKey E _ (WalletDatastore r)) as [[e|dk] w1]; simpl; [done|].
  destruct (importInitKeys E _ w1) as [[e|[]] w2]; simpl; [done|].
  destruct (Address E dk) as [e|a]; simpl; [done|].
  by destruct (config_fault E _).
Qed.

Lemma Init_provision_eq gen opts r :
  Init_provision E gen opts r =
  let cfg := applyOpts opts in
  match chain_Init E gen (Datastore r) with
  | (inl e, d) => (inl (Wrap e "Could not Init Node"), set_Datastore d r)
  | (inr _, d) =>
  match initPeerKey E (peerKey cfg) (Keystore r) with
  | (inl e, ks) =>
      (inl e, mkRepo d ks (WalletDatastore r) (Config r) (Persisted r) (ConfigWrites r))
  | (inr _, ks) =>
  match backend_fault E (WalletDatastore r) with
  | Some e =>
      (inl (Wrap e "failed to open wallet datastore"),
       mkRepo d ks (WalletDatastore r) (Config r) (Persisted r) (ConfigWrites r))
  | None =>
  match initDefaultKey E (defaultKey cfg) (WalletDatastore r) with
  | (inl e, w1) =>
      (inl e, mkRepo d ks w1 (Config r) (Persisted r) (ConfigWrites r))
  | (inr dk, w1) =>
  match importInitKeys E (initImports cfg) w1 with
  | (inl e, w2) =>
      (inl e, mkRepo d ks w2 (Config r) (Persisted r) (ConfigWrites r))
  | (inr _, w2) =>
  match Address E dk with
  | inl e =>
      (inl (Wrap e "failed to extract address from default key"),
       mkRepo d ks w2 (Config r) (Persisted r) (ConfigWrites r))
  | inr a => (inr a, mkRepo d ks w2 (Config r) (Persisted r) (ConfigWrites r))
  end end end end end end.
Proof.
  unfold Init_provision, bind, wrap, zoom, lift, NewDSBackend; simpl.
  destruct (chain_Init E gen (Datastore r)) as [[e|g] d]; simpl; [done|].
  destruct (initPeerKey E _ (Keystore r)) as [[e|[]] ks]; simpl; [done|].
  destruct (backend_fault E (WalletDatastore r)); simpl; [done|].
  destruct (initDefaultKey E _ (WalletDatastore r)) as [[e|dk] w1]; simpl; [done|].
  destruct (importInitKeys E _ w1) as [[e|[]] w2]; simpl; [done|].
  by destruct (Address E dk) as [e|a].
Qed.

Lemma Init_commit_eq a r :
  Init_commit E a r =
  let c := set_DefaultAddress a (Config r) in
  match config_fault E c with
  | Some e =>
      (inl (Wrap e "failed to write config"),
       mkRepo (Datastore r) (Keystore r) (WalletDatastore r) c
              (Persisted r) (ConfigWrites r))
  | None =>
      (inr (), mkRepo (Datastore r) (Keystore r) (WalletDatastore r) c c
                      (S (ConfigWrites r)))
  end.
Proof.
  unfold Init_commit, bind, wrap, modify, ReplaceConfig; simpl.
  by destruct (config_fault E _).
Qed.

(** [Init] is its provisioning part followed by the commit. *)
Lemma Init_split gen opts r :
  Init E gen opts r = bind (Init_provision E gen opts) (Init_commit E) r.
Proof.
  unfold bind at 1. rewrite Init_eq, Init_provision_eq; simpl.
  destruct (chain_Init E gen (Datastore r)) as [[e|g] d]; [done|].
  destruct (initPeerKey E _ (Keystore r)) as [[e|[]] ks]; [done|].
  destruct (backend_fault E (WalletDatastore r)); [done|].
  destruct (initDefaultKey E _ (WalletDatastore r)) as [[e|dk] w1]; [done|].
  destruct (importInitKeys E _ w1) as [[e|[]] w2]; [done|].
  destruct (Address E dk) as [e|a]; [done|].
  by rewrite Init_commit_eq.
Qed.

(** What a successful run went through. *)
Lemma Init_inr gen opts r r' :
  Init E gen opts r = (inr (), r') →
  ∃ g d ks dk w1 w2 a,
    chain_Init E gen (Datastore r) = (inr g, d) ∧
    initPeerKey E (peerKey (applyOpts opts)) (Keystore r) = (inr (), ks) ∧
    backend_fault E (WalletDatastore r) = None ∧
    initDefaultKey E (defaultKey (applyOpts opts)) (WalletDatastore r) = (inr dk, w1) ∧
    importInitKeys E (initImports (applyOpts opts)) w1 = (inr (), w2) ∧
    Address E dk = inr a ∧
    config_fault E (set_DefaultAddress a (Config r)) = None ∧
    r' = mkRepo d ks w2 (set_DefaultAddress a (Config r))
                (set_DefaultAddress a (Config r)) (S (ConfigWrites r)).
Proof.
  rewrite Init_eq; simpl.
  destruct (chain_Init E gen (Datastore r)) as [[e|g] d]; [done|].
  destruct (initPeerKey E _ (Keystore r)) as [[e|[]] ks]; [done|].
  destruct (backend_fault E (WalletDatastore r)) eqn:Hb; [done|].
  destruct (initDefaultKey E _ (WalletDatastore r)) as [[e|dk] w1]; [done|].
  destruct (importInitKeys E _ w1) as [[e|[]] w2] eqn:Hi; [done|].
  destruct (Address E dk) as [e|a] eqn:Ha; [done|].
  destruct (config_fault E _) eqn:Hc; [done|].
  intros ?; simplify_eq. by exists g, d, ks, dk, w1, w2, a.
Qed.

(** *** The claims *)

(** C1: on a valid repository, with collaborators that work and a
    genesis function that succeeds, [Init] without options returns no
    error; afterwards the key store holds one entry, under ["self"], the
    wallet holds one key record, the one the wallet generated, and the
    default wallet address of the configuration, in memory and on disk, is
    the address derived from that record. *)
Theorem Init_no_options gen r g bs :
  healthy E →
  valid_repo r →
  gen (Blocks (Datastore r)) = (inr g, bs) →
  ∃ k ki a r',
    Init E gen [] r = (inr (), r') ∧
    GenerateKeyPair E RSA 2048 = inr k ∧
    Keystore r' = {["self" := k]} ∧
    generate_key E ∅ = inr ki ∧
    Address E ki = inr a ∧
    WalletDatastore r' = {[a := ki]} ∧
    size (WalletDatastore r') = 1%nat ∧
    Wallet_DefaultAddress (Config r') = a ∧
    Wallet_DefaultAddress (Persisted r') = a.
Proof.
  intros HE [Hks Hw] Hgen.
  destruct (healthy_peer_key E HE) as [k Hk].
  destruct (healthy_wallet_key E HE ∅) as (ki & a & Hki & Ha).
  exists k, ki, a. eexists. split.
  - rewrite Init_eq, chain_Init_eq, Hgen, (healthy_genesis E HE); simpl.
    rewrite initPeerKey_eq; unfold defaultPeerKeyBits in Hk.
    rewrite Hk, (healthy_keystore E HE), (healthy_backend E HE), Hw.
    unfold initDefaultKey, wrap, NewKeyInfo, bind, lift, ret, putKeyInfo.
    rewrite Hki, Ha, (healthy_wallet E HE); simpl.
    rewrite Ha, (healthy_config E HE). reflexivity.
  - simpl. rewrite Hks, !insert_empty. repeat split; try done.
    apply map_size_singleton.
Qed.

(** C3: when the genesis function fails, [Init] returns its error
    wrapped with ["Could not Init Node"], and the key store, the wallet
    datastore and the configuration, in memory and on disk, are as they
    were: only the blocks the genesis function wrote are kept. *)
Theorem Init_genesis_failure gen opts r e bs :
  gen (Blocks (Datastore r)) = (inl e, bs) →
  ∃ r',
    Init E gen opts r = (inl (Wrap e "Could not Init Node"), r') ∧
    r' = set_Datastore (set_Blocks bs (Datastore r)) r ∧
    Keystore r' = Keystore r ∧
    WalletDatastore r' = WalletDatastore r ∧
    Config r' = Config r ∧
    Persisted r' = Persisted r ∧
    ConfigWrites r' = ConfigWrites r ∧
    Genesis (Datastore r') = Genesis (Datastore r).
Proof.
  intros Hgen. eexists. split.
  - by rewrite Init_eq, chain_Init_eq, Hgen.
  - done.
Qed.

(** C4: [importInitKeys] imports in list order and stops at the first
    failure.  When the records before position k import without failure
    and the k-th is malformed, the loop returns the k-th record's error,
    the wallet is the one reached by importing exactly the records before
    k, each of which has an entry under its address (the record itself
    when their addresses are distinct), and nothing depends on the
    records after k. *)
Theorem importInitKeys_stops_at_first_failure (pre post : list KeyInfo) ki w w1 e :
  importInitKeys E pre w = (inr (), w1) →
  Address E ki = inl e →
  importInitKeys E (pre ++ ki :: post) w = (inl e, w1) ∧
  importInitKeys E (pre ++ ki :: post) w = importInitKeys E (pre ++ [ki]) w ∧
  w1 = stored E pre w ∧
  Forall (λ x, ∃ a, Address E x = inr a ∧ is_Some (w1 !! a)) pre ∧
  (NoDup (Address E <$> pre) →
   Forall (λ x, ∃ a, Address E x = inr a ∧ w1 !! a = Some x) pre).
Proof.
  intros Hpre Hki.
  assert (∀ l, importInitKeys E (pre ++ ki :: l) w = (inl e, w1)) as Hstop.
  { intros l. rewrite importInitKeys_app, Hpre. simpl.
    unfold bind. by rewrite Import_eq, Hki. }
  pose proof (importInitKeys_inr _ _ _ Hpre) as [-> Hwf].
  split; [apply Hstop|]. split; [by rewrite !Hstop|]. split; [done|].
  split.
  - apply Forall_forall. intros x Hx.
    rewrite Forall_forall in Hwf. destruct (Hwf x Hx) as [a Ha].
    exists a. split; [done|]. by apply (stored_dom pre w x).
  - intros Hnd. apply Forall_forall. intros x Hx.
    rewrite Forall_forall in Hwf. destruct (Hwf x Hx) as [a Ha].
    exists a. split; [done|]. by apply stored_lookup.
Qed.

(** C5: [initPeerKey] succeeds exactly when the key to store, the
    supplied one or else the one generated by RSA at 2048 bits, is
    accepted by the key store; the store is then the old one with that
    key under ["self"], whatever it held there before. *)
Theorem initPeerKey_stores_self key store store' :
  initPeerKey E key store = (inr (), store') ↔
  ∃ k,
    match key with
    | Some supplied => k = supplied
    | None => GenerateKeyPair E RSA 2048 = inr k
    end ∧
    keystore_fault E store "self" k = None ∧
    store' = <["self" := k]> store ∧
    store' !! "self" = Some k ∧
    defaultPeerKeyBits = 2048.
Proof.
  split.
  - intros (k & Hk & Hf & ->)%initPeerKey_inr. exists k.
    by rewrite lookup_insert_eq.
  - intros (k & Hk & Hf & -> & _ & _). rewrite initPeerKey_eq.
    destruct key as [k0|]; simplify_eq; [|rewrite Hk]; by rewrite Hf.
Qed.

(** C6: when a default key record is supplied, nothing else is
    imported and [Init] succeeds on a repository with an empty wallet,
    the wallet holds that record alone, under its address; the default-key
    step returns that record; and the configured default wallet address,
    in memory and on disk, is its address. *)
Theorem Init_default_key_supplied gen opts r r' ki :
  WalletDatastore r = ∅ →
  defaultKey (applyOpts opts) = Some ki →
  initImports (applyOpts opts) = [] →
  Init E gen opts r = (inr (), r') →
  ∃ a,
    Address E ki = inr a ∧
    WalletDatastore r' = {[a := ki]} ∧
    size (WalletDatastore r') = 1%nat ∧
    (initDefaultKey E (Some ki) (WalletDatastore r)).1 = inr ki ∧
    Wallet_DefaultAddress (Config r') = a ∧
    Wallet_DefaultAddress (Persisted r') = a.
Proof.
  intros Hw Hdk Himp
    (g & d & ks & dk & w1 & w2 & a & _ & _ & _ & Hd & Hi & Ha & _ & ->)%Init_inr.
  rewrite Hdk in Hd. rewrite Himp in Hi.
  pose proof (initDefaultKey_inr _ _ _ _ Hd) as (-> & a' & Ha' & ->).
  simpl in Hi. unfold ret in Hi. rewrite Ha in Ha'. simplify_eq.
  exists a'. rewrite Hd, Hw. simpl. rewrite insert_empty.
  repeat split; try done. apply map_size_singleton.
Qed.


(** C8: a run of [Init] that succeeds wrote the configuration once,
    as a whole: the object on disk is the in-memory object as it was when
    the commit began, with the default wallet address set and every other
    field as it was. *)
Theorem Init_commits_whole_config gen opts r r' :
  Init E gen opts r = (inr (), r') →
  ∃ a r1,
    Init_provision E gen opts r = (inr a, r1) ∧
    Persisted r' = set_DefaultAddress a (Config r1) ∧
    Wallet_DefaultAddress (Persisted r') = a ∧
    Other (Persisted r') = Other (Config r1) ∧
    Config r' = Persisted r' ∧
    ConfigWrites r1 = ConfigWrites r ∧
    ConfigWrites r' = S (ConfigWrites r).
Proof.
  rewrite Init_split. intros (a & r1 & Hp & Hc)%bind_inr.
  exists a, r1. split; [done|].
  assert (ConfigWrites r1 = ConfigWrites r) as Hn.
  { revert Hp. rewrite Init_provision_eq; simpl.
    repeat case_match; intros ?; by simplify_eq. }
  revert Hc. rewrite Init_commit_eq; simpl.
  destruct (config_fault E _); [done|]. intros ?; simplify_eq. simpl.
  by rewrite Hn.
Qed.

(** C9: when genesis installation and the peer key step succeed and
    the wallet backend fails to open, [Init] returns that failure wrapped
    with ["failed to open wallet datastore"]; the key store then holds the
    ["self"] entry and the genesis state is installed, while the wallet
    datastore and the configuration, in memory and on disk, are as they
    were. *)
Theorem Init_wallet_open_failure gen opts r g d store' e :
  chain_Init E gen (Datastore r) = (inr g, d) →
  initPeerKey E (peerKey (applyOpts opts)) (Keystore r) = (inr (), store') →
  backend_fault E (WalletDatastore r) = Some e →
  ∃ r',
    Init E gen opts r = (inl (Wrap e "failed to open wallet datastore"), r') ∧
    is_Some (Keystore r' !! "self") ∧
    Genesis (Datastore r') = Some g ∧
    WalletDatastore r' = WalletDatastore r ∧
    Config r' = Config r ∧
    Persisted r' = Persisted r ∧
    ConfigWrites r' = ConfigWrites r.
Proof.
  intros Hg Hk Hb. eexists. split.
  - rewrite Init_eq. cbv zeta. by rewrite Hg, Hk, Hb.
  - simpl. apply chain_Init_inr in Hg.
    apply initPeerKey_inr in Hk as (k & _ & _ & ->).
    rewrite lookup_insert_eq. eauto 10.
Qed.



(** The message tells the stage. *)
Lemma stage_message_inj st1 st2 :
  stage_message st1 = stage_message st2 → st1 = st2.
Proof. destruct st1, st2; simpl; intros ?; by simplify_eq. Qed.


End node_facts.

(** ** Runs on the simulated environment *)

Example Init_fresh_run :
  Init Sim.ok Sim.gen Sim.no_opts Sim.fresh =
  (inr (),
   {| Datastore := {| Blocks := ["genesis"]; Genesis := Some "genesis" |};
      Keystore := {["self" := "rsa-2048-peer-key"]};
      WalletDatastore := {["f1generated" := "generated"]};
      Config := {| Wallet_DefaultAddress := "f1generated";
                   Other := "api=:3453" |};
      Persisted := {| Wallet_DefaultAddress := "f1generated";
                      Other := "api=:3453" |};
      ConfigWrites := 1 |}).
Proof. vm_compute. reflexivity. Qed.

(** The second of three import records is malformed: the first is in
    the wallet, the third is not, and the configuration was not written. *)
Example Init_bad_middle_run :
  Init Sim.ok Sim.gen Sim.bad_middle Sim.fresh =
  (inl (New "invalid key material"),
   {| Datastore := {| Blocks := ["genesis"]; Genesis := Some "genesis" |};
      Keystore := {["self" := "rsa-2048-peer-key"]};
      WalletDatastore := {["f1generated" := "generated"; "f1k1" := "k1"]};
      Config := {| Wallet_DefaultAddress := ""; Other := "api=:3453" |};
      Persisted := {| Wallet_DefaultAddress := ""; Other := "api=:3453" |};
      ConfigWrites := 0 |}).
Proof. vm_compute. reflexivity. Qed.

(** A genesis function that fails leaves the fresh repository as it
    was. *)
Example Init_gen_fails_run :
  Init Sim.ok Sim.gen_fails Sim.no_opts Sim.fresh =
  (inl (Wrap (New "no genesis") "Could not Init Node"), Sim.fresh).
Proof. vm_compute. reflexivity. Qed.

Example Error_of_wrapped :
  Error (Wrap (New "disk full") "failed to write config") =
  "failed to write config: disk full".
Proof. reflexivity. Qed.

(** ** The properties on the simulated environment *)

Lemma Sim_ok_healthy : healthy Sim.ok.
Proof.
  constructor; try done.
  - by exists "rsa-2048-peer-key".
  - intros w. by exists "generated", "f1generated".
Qed.

Lemma Sim_fresh_valid : valid_repo Sim.fresh.
Proof. by split. Qed.

(** C1 on the simulated environment. *)
Lemma Init_no_options_witness :
  ∃ k ki a r',
    Init Sim.ok Sim.gen Sim.no_opts Sim.fresh = (inr (), r') ∧
    GenerateKeyPair Sim.ok RSA 2048 = inr k ∧
    Keystore r' = {["self" := k]} ∧
    generate_key Sim.ok ∅ = inr ki ∧
    Address Sim.ok ki = inr a ∧
    WalletDatastore r' = {[a := ki]} ∧
    size (WalletDatastore r') = 1%nat ∧
    Wallet_DefaultAddress (Config r') = a ∧
    Wallet_DefaultAddress (Persisted r') = a.
Proof.
  apply (Init_no_options Sim.ok Sim.gen Sim.fresh "genesis" ["genesis"]).
  - exact Sim_ok_healthy.
  - exact Sim_fresh_valid.
  - reflexivity.
Defined.



(** C3 on a genesis function that fails. *)
Lemma Init_genesis_failure_witness :
  ∃ r',
    Init Sim.ok Sim.gen_fails Sim.no_opts Sim.fresh =
      (inl (Wrap (New "no genesis") "Could not Init Node"), r') ∧
    r' = set_Datastore (set_Blocks [] (Datastore Sim.fresh)) Sim.fresh ∧
    Keystore r' = Keystore Sim.fresh ∧
    WalletDatastore r' = WalletDatastore Sim.fresh ∧
    Config r' = Config Sim.fresh ∧
    Persisted r' = Persisted Sim.fresh ∧
    ConfigWrites r' = ConfigWrites Sim.fresh ∧
    Genesis (Datastore r') = Genesis (Datastore Sim.fresh).
Proof.
  apply (Init_genesis_failure Sim.ok Sim.gen_fails Sim.no_opts Sim.fresh
           (New "no genesis") []).
  reflexivity.
Defined.

(** C4 on the list ["k1"; ""; "k2"], whose second record is malformed. *)
Lemma importInitKeys_stops_at_first_failure_witness :
  importInitKeys Sim.ok (["k1"] ++ "" :: ["k2"]) ∅ =
    (inl (New "invalid key material"), {["f1k1" := "k1"]}) ∧
  importInitKeys Sim.ok (["k1"] ++ "" :: ["k2"]) ∅ =
    importInitKeys Sim.ok (["k1"] ++ [""]) ∅ ∧
  ({["f1k1" := "k1"]} : gmap string string) = stored Sim.ok ["k1"] ∅ ∧
  Forall (λ x, ∃ a, Address Sim.ok x = inr a ∧
                    is_Some (({["f1k1" := "k1"]} : gmap string string) !! a))
         ["k1"] ∧
  (NoDup (Address Sim.ok <$> ["k1"]) →
   Forall (λ x, ∃ a, Address Sim.ok x = inr a ∧
                     ({["f1k1" := "k1"]} : gmap string string) !! a = Some x)
          ["k1"]).
Proof.
  apply (importInitKeys_stops_at_first_failure Sim.ok ["k1"] ["k2"] "" ∅
           {["f1k1" := "k1"]} (New "invalid key material")).
  - reflexivity.
  - reflexivity.
Defined.

(** C5 on a key store that already holds a ["self"] entry. *)
Lemma initPeerKey_stores_self_witness :
  initPeerKey Sim.ok (Some "supplied") {["self" := "old"]} =
    (inr (), <["self" := "supplied"]> {["self" := "old"]}) ∧
  initPeerKey Sim.ok None {["self" := "old"]} =
    (inr (), <["self" := "rsa-2048-peer-key"]> {["self" := "old"]}).
Proof.
  split.
  - apply (proj2 (initPeerKey_stores_self Sim.ok (Some "supplied")
                    {["self" := "old"]} _)).
    exists "supplied". by rewrite lookup_insert_eq.
  - apply (proj2 (initPeerKey_stores_self Sim.ok None {["self" := "old"]} _)).
    exists "rsa-2048-peer-key". by rewrite lookup_insert_eq.
Defined.

(** C6 on the supplied default key record ["d"]. *)
Lemma Init_default_key_supplied_witness :
  ∃ a,
    Address Sim.ok "d" = inr a ∧
    WalletDatastore (Init Sim.ok Sim.gen Sim.default_d Sim.fresh).2
      = {[a := "d"]} ∧
    size (WalletDatastore
            (Init Sim.ok Sim.gen Sim.default_d Sim.fresh).2) = 1%nat ∧
    (initDefaultKey Sim.ok (Some "d") (WalletDatastore Sim.fresh)).1 = inr "d" ∧
    Wallet_DefaultAddress
      (Config (Init Sim.ok Sim.gen Sim.default_d Sim.fresh).2) = a ∧
    Wallet_DefaultAddress
      (Persisted (Init Sim.ok Sim.gen Sim.default_d Sim.fresh).2) = a.
Proof.
  apply (Init_default_key_supplied Sim.ok Sim.gen Sim.default_d
           Sim.fresh).
  - reflexivity.
  - reflexivity.
  - reflexivity.
  - vm_compute. reflexivity.
Defined.


(** C8 on a run without options. *)
Lemma Init_commits_whole_config_witness :
  ∃ a r1,
    Init_provision Sim.ok Sim.gen Sim.no_opts Sim.fresh = (inr a, r1) ∧
    Persisted (Init Sim.ok Sim.gen Sim.no_opts Sim.fresh).2 =
      set_DefaultAddress a (Config r1) ∧
    Wallet_DefaultAddress (Persisted (Init Sim.ok Sim.gen Sim.no_opts Sim.fresh).2) = a ∧
    Other (Persisted (Init Sim.ok Sim.gen Sim.no_opts Sim.fresh).2) = Other (Config r1) ∧
    Config (Init Sim.ok Sim.gen Sim.no_opts Sim.fresh).2 =
      Persisted (Init Sim.ok Sim.gen Sim.no_opts Sim.fresh).2 ∧
    ConfigWrites r1 = ConfigWrites Sim.fresh ∧
    ConfigWrites (Init Sim.ok Sim.gen Sim.no_opts Sim.fresh).2 =
      S (ConfigWrites Sim.fresh).
Proof.
  apply (Init_commits_whole_config Sim.ok Sim.gen Sim.no_opts Sim.fresh).
  vm_compute. reflexivity.
Defined.

(** C9 on a wallet backend that fails to open. *)
Lemma Init_wallet_open_failure_witness :
  ∃ r',
    Init (Sim.env (Some (New "datastore locked")) None) Sim.gen Sim.no_opts Sim.fresh =
      (inl (Wrap (New "datastore locked") "failed to open wallet datastore"), r') ∧
    is_Some (Keystore r' !! "self") ∧
    Genesis (Datastore r') = Some "genesis" ∧
    WalletDatastore r' = WalletDatastore Sim.fresh ∧
    Config r' = Config Sim.fresh ∧
    Persisted r' = Persisted Sim.fresh ∧
    ConfigWrites r' = ConfigWrites Sim.fresh.
Proof.
  apply (Init_wallet_open_failure (Sim.env (Some (New "datastore locked")) None)
           Sim.gen Sim.no_opts Sim.fresh "genesis"
           {| Blocks := ["genesis"]; Genesis := Some "genesis" |}
           {["self" := "rsa-2048-peer-key"]}).
  - reflexivity.
  - reflexivity.
  - reflexivity.
Defined.


(** ** Further properties of [init.go] *)

Section node_more.

Context {PrivKey KeyInfo Addr Block Rest : Type}.
Context `{Countable Addr}.
Variable E : Env PrivKey KeyInfo Addr Block Rest.

Implicit Types (r : Repo PrivKey KeyInfo Addr Block Rest).
Implicit Types (w : gmap Addr KeyInfo) (store : gmap string PrivKey).
Implicit Types (ki : KeyInfo) (k : PrivKey) (a : Addr) (e : error).
Implicit Types (gen : GenesisInitFunc Block).
Implicit Types (opts : list (InitOpt PrivKey KeyInfo)).

(** *** Options *)

(** X1: the options are applied in the order given: the peer key and
    the default key record are those of the last call of their builder
    (nil when it was never called, or last called with nil), and the import
    list is made of the records of every [ImportKeyOpt] call, in call
    order. *)
Theorem applyOpts_calls (cs : list (OptCall PrivKey KeyInfo)) :
  applyOpts (option_of <$> cs) =
  {| peerKey := default None (last (peer_keys cs));
     defaultKey := default None (last (default_keys cs));
     initImports := import_keys cs |}.
Proof.
  induction cs as [|c cs IH] using rev_ind; [done|].
  rewrite fmap_app, fmap_cons, fmap_nil, applyOpts_snoc, IH.
  unfold peer_keys, default_keys, import_keys. rewrite !omap_app.
  destruct c; simpl; rewrite ?app_nil_r, ?last_snoc; done.
Qed.

(** *** What a run leaves alone *)

Lemma initPeerKey_other key store name :
  name ≠ "self" → (initPeerKey E key store).2 !! name = store !! name.
Proof.
  intros Hne. rewrite initPeerKey_eq.
  repeat case_match; simpl; try done; by rewrite lookup_insert_ne.
Qed.

(** X4: whatever the outcome of [Init], the key store is changed at
    the alias ["self"] at most: every other entry is as it was. *)
Theorem Init_keystore_frame gen opts r name :
  name ≠ "self" →
  Keystore (Init E gen opts r).2 !! name = Keystore r !! name.
Proof.
  intros Hne. rewrite Init_eq. cbv zeta.
  destruct (chain_Init E gen (Datastore r)) as [[e|g] d]; [done|].
  pose proof (initPeerKey_other (peerKey (applyOpts opts)) (Keystore r) name Hne)
    as Hk.
  destruct (initPeerKey E _ (Keystore r)) as [[e|[]] ks]; [done|].
  simpl in Hk. repeat case_match; done.
Qed.

(** X5: whatever the outcome of [Init], no field of the in-memory
    configuration other than the default wallet address is changed, and the
    other fields on disk are either as they were or those of the in-memory
    configuration. *)
Theorem Init_config_other_fields gen opts r :
  Other (Config (Init E gen opts r).2) = Other (Config r) ∧
  (Other (Persisted (Init E gen opts r).2) = Other (Persisted r) ∨
   Other (Persisted (Init E gen opts r).2) = Other (Config r)).
Proof.
  rewrite Init_eq. cbv zeta. repeat case_match; simpl; auto.
Qed.


(** *** Supplied keys *)

(** X2: when the options supply a peer key, the peer key generator
    plays no part in [Init], and a run that succeeds leaves the key store
    as it was with the supplied key under ["self"]. *)
Theorem Init_supplied_peer_key gen opts r k
    (f : KeyType → Z → result PrivKey) :
  peerKey (applyOpts opts) = Some k →
  Init (with_GenerateKeyPair f E) gen opts r = Init E gen opts r ∧
  ∀ r', Init E gen opts r = (inr (), r') →
        Keystore r' = <["self" := k]> (Keystore r).
Proof.
  intros Hk. split.
  - unfold Init. rewrite Hk. reflexivity.
  - intros r' (g & d & ks & dk & w1 & w2 & a & _ & Hp & _ & _ & _ & _ & _ & ->)%Init_inr.
    rewrite Hk in Hp. apply initPeerKey_inr in Hp as (k' & -> & _ & ->). done.
Qed.

(** X3: when the options supply a default key record, the wallet's
    key generator plays no part in [Init], and a run that succeeds leaves
    the wallet as it was with the supplied record and then the import
    records written, each under its address; the default wallet address is
    the address of the supplied record. *)
Theorem Init_supplied_default_key gen opts r ki
    (f : gmap Addr KeyInfo → result KeyInfo) :
  defaultKey (applyOpts opts) = Some ki →
  Init (with_generate_key f E) gen opts r = Init E gen opts r ∧
  ∀ r', Init E gen opts r = (inr (), r') →
        WalletDatastore r' =
          stored E (ki :: initImports (applyOpts opts)) (WalletDatastore r) ∧
        Address E ki = inr (Wallet_DefaultAddress (Config r')).
Proof.
  intros Hk. split.
  - unfold Init. rewrite Hk. reflexivity.
  - intros r' (g & d & ks & dk & w1 & w2 & a & _ & _ & _ & Hd & Hi & Ha & _ & ->)%Init_inr.
    rewrite Hk in Hd. apply initDefaultKey_inr in Hd as (-> & a' & Ha' & ->).
    apply importInitKeys_inr in Hi as [-> _]. simpl.
    split; [by rewrite stored_cons, Ha'|done].
Qed.

(** *** Stages that fail, stages that are done *)

(** X7: once genesis installation has succeeded, the chain datastore
    it left, with the genesis state installed, is what [Init] leaves,
    whatever happens afterwards; and once the peer key step has succeeded as
    well, so is the key store it left, with its ["self"] entry. *)
Theorem Init_keeps_completed_stages gen opts r g d :
  chain_Init E gen (Datastore r) = (inr g, d) →
  Datastore (Init E gen opts r).2 = d ∧
  Genesis (Datastore (Init E gen opts r).2) = Some g ∧
  ∀ store',
    initPeerKey E (peerKey (applyOpts opts)) (Keystore r) = (inr (), store') →
    Keystore (Init E gen opts r).2 = store' ∧ is_Some (store' !! "self").
Proof.
  intros Hg. pose proof (chain_Init_inr _ _ _ _ _ Hg) as Hgen.
  rewrite Init_eq, Hg. cbv zeta.
  destruct (initPeerKey E _ (Keystore r)) as [[e|[]] ks] eqn:Hk.
  - simpl. split; [done|]. split; [done|]. intros ? ?; simplify_eq.
  - assert (is_Some (ks !! "self")) as Hself.
    { apply initPeerKey_inr in Hk as (k & _ & _ & ->).
      rewrite lookup_insert_eq. eauto. }
    repeat case_match; simpl; (split; [done|]); (split; [done|]);
      intros ? ?; by simplify_eq.
Qed.

(** X8: when the peer key step fails after genesis installation,
    [Init] returns the error of [initPeerKey] as it is; the failure is that
    of the key generation, with no key supplied, or that of the key store
    write; genesis stays installed, and the key store, the wallet datastore
    and the configuration are as they were. *)
Theorem Init_peer_key_failure gen opts r g d e store' :
  chain_Init E gen (Datastore r) = (inr g, d) →
  initPeerKey E (peerKey (applyOpts opts)) (Keystore r) = (inl e, store') →
  Init E gen opts r =
    (inl e, mkRepo d (Keystore r) (WalletDatastore r) (Config r)
                   (Persisted r) (ConfigWrites r)) ∧
  ((∃ cause,
      peerKey (applyOpts opts) = None ∧
      GenerateKeyPair E RSA 2048 = inl cause ∧
      e = Wrap cause "failed to create peer key") ∨
   (∃ cause k,
      keystore_fault E (Keystore r) "self" k = Some cause ∧
      e = Wrap cause "failed to store private key")).
Proof.
  intros Hg Hk. rewrite Init_eq, Hg. cbv zeta. rewrite Hk.
  revert Hk. rewrite initPeerKey_eq.
  destruct (peerKey (applyOpts opts)) as [k|].
  - destruct (keystore_fault E (Keystore r) "self" k) as [cause|] eqn:Hf; [|done].
    intros ?; simplify_eq. split; [done|]. right. by exists cause, k.
  - destruct (GenerateKeyPair E RSA 2048) as [cause|k] eqn:Hgk.
    + intros ?; simplify_eq. split; [done|]. left. by exists cause.
    + destruct (keystore_fault E (Keystore r) "self" k) as [cause|] eqn:Hf; [|done].
      intros ?; simplify_eq. split; [done|]. right. by exists cause, k.
Qed.

Lemma initDefaultKey_inl_wallet key w e w' :
  initDefaultKey E key w = (inl e, w') →
  w' = w ∧
  ∃ cause, e = Wrap cause match key with
                          | Some _ => "failed to import default key"
                          | None => "failed to create default key"
                          end.
Proof.
  unfold initDefaultKey. destruct key as [ki|].
  - intros [(c & -> & Hi)%wrap_inl|(x & w1 & _ & Hr)]%bind_inl; [|done].
    apply Import_inl in Hi. eauto.
  - intros (c & -> & Hn)%wrap_inl. split; [|eauto].
    revert Hn. unfold NewKeyInfo, bind, lift, ret, putKeyInfo.
    repeat case_match; intros ?; by simplify_eq.
Qed.

(** X9: when the default key step fails after the wallet was opened,
    [Init] returns the error of [initDefaultKey] as it is, wrapped by
    [initDefaultKey] with the import message when a record was supplied and
    with the creation message otherwise; no import record was written: the
    wallet datastore and the configuration are as they were, while genesis
    and the peer key stay. *)
Theorem Init_default_key_failure gen opts r g d store' e w1 :
  chain_Init E gen (Datastore r) = (inr g, d) →
  initPeerKey E (peerKey (applyOpts opts)) (Keystore r) = (inr (), store') →
  backend_fault E (WalletDatastore r) = None →
  initDefaultKey E (defaultKey (applyOpts opts)) (WalletDatastore r) = (inl e, w1) →
  Init E gen opts r =
    (inl e, mkRepo d store' (WalletDatastore r) (Config r)
                   (Persisted r) (ConfigWrites r)) ∧
  ∃ cause, e = Wrap cause match defaultKey (applyOpts opts) with
                          | Some _ => "failed to import default key"
                          | None => "failed to create default key"
                          end.
Proof.
  intros Hg Hk Hb Hd. rewrite Init_eq, Hg. cbv zeta. rewrite Hk, Hb, Hd.
  apply initDefaultKey_inl_wallet in Hd as [-> Hc]. done.
Qed.

(** *** The import loop *)

(** X10: [importInitKeys] succeeds exactly when every record of the
    list has a derivable address and is accepted by the wallet datastore as
    the records before it left it; the wallet is then the one it started
    from with the records written in list order. *)
Theorem importInitKeys_succeeds_iff (l : list KeyInfo) w w' :
  importInitKeys E l w = (inr (), w') ↔
  w' = stored E l w ∧
  ∀ i ki, l !! i = Some ki →
    ∃ a, Address E ki = inr a ∧
         wallet_fault E (stored E (take i l) w) a ki = None.
Proof.
  revert w. induction l as [|kj l IH]; intros w.
  - simpl. unfold ret. split.
    + intros ?; simplify_eq. split; [done|]. intros i ki Hi.
      by rewrite lookup_nil in Hi.
    + by intros [-> _].
  - simpl. rewrite bind_inr. split.
    + intros (a & w1 & Hi & Hl). revert Hi. rewrite Import_eq.
      destruct (Address E kj) as [e|a0] eqn:Ha; [done|].
      destruct (wallet_fault E w a0 kj) eqn:Hf; [done|].
      intros ?; simplify_eq. apply IH in Hl as [-> Hl].
      split; [by rewrite stored_cons, Ha|].
      intros [|i] ki Hi; simpl in Hi.
      * simplify_eq. exists a. by rewrite take_0.
      * destruct (Hl i ki Hi) as (b & Hb & Hfb). exists b.
        split; [done|]. by rewrite firstn_cons, stored_cons, Ha.
    + intros [-> Hall].
      destruct (Hall 0%nat kj eq_refl) as (a & Ha & Hf). rewrite take_0 in Hf.
      exists a, (<[a:=kj]> w). split.
      * rewrite Import_eq, Ha. unfold stored in Hf. simpl in Hf. by rewrite Hf.
      * apply IH. split; [by rewrite stored_cons, Ha|].
        intros i ki Hi. destruct (Hall (S i) ki Hi) as (b & Hb & Hfb).
        exists b. split; [done|].
        by rewrite firstn_cons, stored_cons, Ha in Hfb.
Qed.

(** Whatever its outcome, the loop leaves the wallet with the records
    of a prefix of the list written. *)
Lemma importInitKeys_wallet (l : list KeyInfo) w :
  ∃ pre post, l = pre ++ post ∧ (importInitKeys E l w).2 = stored E pre w.
Proof.
  destruct (importInitKeys E l w) as [[e|[]] w'] eqn:Hl.
  - apply importInitKeys_inl in Hl as (pre & ki & post & -> & Hpre & _).
    apply importInitKeys_inr in Hpre as [-> _]. by exists pre, (ki :: post).
  - apply importInitKeys_inr in Hl as [-> _]. exists l, []. by rewrite app_nil_r.
Qed.

(** X11: whatever the outcome of [importInitKeys], a wallet entry
    whose address is that of no record of the list is as it was. *)
Theorem importInitKeys_frame (l : list KeyInfo) w a :
  inr a ∉ Address E <$> l →
  (importInitKeys E l w).2 !! a = w !! a.
Proof.
  intros Hn. destruct (importInitKeys_wallet l w) as (pre & post & -> & ->).
  apply stored_lookup_other. intros Hin. apply Hn.
  rewrite fmap_app. apply elem_of_app. by left.
Qed.

Lemma initDefaultKey_mono key w a :
  is_Some (w !! a) → is_Some ((initDefaultKey E key w).2 !! a).
Proof.
  intros Hw. destruct (initDefaultKey E key w) as [[e|dk] w1] eqn:Hd.
  - by apply initDefaultKey_inl_wallet in Hd as [-> _].
  - apply initDefaultKey_inr in Hd as (_ & b & _ & ->). simpl.
    destruct (decide (b = a)) as [->|Hne].
    + rewrite lookup_insert_eq. eauto.
    + by rewrite lookup_insert_ne.
Qed.

(** X12: whatever the outcome of [Init], an address that had a key
    record in the wallet datastore before the run still has one after
    it. *)
Theorem Init_keeps_wallet_keys gen opts r a :
  is_Some (WalletDatastore r !! a) →
  is_Some (WalletDatastore (Init E gen opts r).2 !! a).
Proof.
  intros Hw. rewrite Init_eq. cbv zeta.
  destruct (chain_Init E gen (Datastore r)) as [[e|g] d]; [done|].
  destruct (initPeerKey E _ (Keystore r)) as [[e|[]] ks]; [done|].
  destruct (backend_fault E (WalletDatastore r)); [done|].
  pose proof (initDefaultKey_mono (defaultKey (applyOpts opts)) _ _ Hw) as Hd.
  destruct (initDefaultKey E _ (WalletDatastore r)) as [[e|dk] w1]; [done|].
  simpl in Hd.
  destruct (importInitKeys_wallet (initImports (applyOpts opts)) w1)
    as (pre & post & _ & Hi).
  pose proof (stored_mono E pre w1 a Hd) as Hs. rewrite <-Hi in Hs.
  destruct (importInitKeys E _ w1) as [[e|[]] w2]; [done|]. simpl in Hs.
  repeat case_match; done.
Qed.

(** X16: the record that [initDefaultKey] returns, supplied or
    generated, is the one the wallet then holds under the record's address,
    and no other wallet entry is changed. *)
Theorem initDefaultKey_returns_stored key w dk w' :
  initDefaultKey E key w = (inr dk, w') →
  ∃ a, Address E dk = inr a ∧
       w' !! a = Some dk ∧
       ∀ b, b ≠ a → w' !! b = w !! b.
Proof.
  intros (_ & a & Ha & ->)%initDefaultKey_inr. exists a.
  split; [done|]. split; [apply lookup_insert_eq|].
  intros b Hb. by apply lookup_insert_ne.
Qed.

(** *** When [Init] succeeds *)

Lemma initDefaultKey_healthy key w :
  healthy E →
  (∀ ki, key = Some ki → well_formed E ki) →
  ∃ dk a, initDefaultKey E key w = (inr dk, <[a:=dk]> w) ∧ Address E dk = inr a.
Proof.
  intros HE Hwf. destruct key as [ki|].
  - destruct (Hwf ki eq_refl) as [a Ha]. exists ki, a. split; [|done].
    unfold initDefaultKey, bind, wrap, ret.
    by rewrite Import_eq, Ha, (healthy_wallet E HE).
  - destruct (healthy_wallet_key E HE w) as (ki & a & Hki & Ha).
    exists ki, a. split; [|done].
    unfold initDefaultKey, wrap, NewKeyInfo, bind, lift, ret, putKeyInfo.
    by rewrite Hki, Ha, (healthy_wallet E HE).
Qed.

Lemma importInitKeys_healthy (l : list KeyInfo) w :
  healthy E → Forall (well_formed E) l →
  importInitKeys E l w = (inr (), stored E l w).
Proof.
  intros HE Hl. revert w. induction Hl as [|ki l [a Ha] _ IH]; intros w; [done|].
  simpl. unfold bind.
  by rewrite Import_eq, Ha, (healthy_wallet E HE), stored_cons, Ha.
Qed.

(** X13: with collaborators that work and a genesis function that
    succeeds, [Init] succeeds exactly when the supplied default key record,
    if there is one, and every import record have a derivable address: on
    any repository and with any options, a malformed key record is the only
    reason left to fail. *)
Theorem Init_succeeds_iff gen opts r g bs :
  healthy E →
  gen (Blocks (Datastore r)) = (inr g, bs) →
  (∃ r', Init E gen opts r = (inr (), r')) ↔
  (∀ ki, defaultKey (applyOpts opts) = Some ki → well_formed E ki) ∧
  Forall (well_formed E) (initImports (applyOpts opts)).
Proof.
  intros HE Hgen. split.
  - intros (r' & (g' & d & ks & dk & w1 & w2 & a & _ & _ & _ & Hd & Hi & Ha & _)%Init_inr).
    split.
    + intros ki Hki. rewrite Hki in Hd.
      apply initDefaultKey_inr in Hd as (-> & _). by exists a.
    + by apply importInitKeys_inr in Hi as [_ Hi].
  - intros [Hdk Himp].
    destruct (initDefaultKey_healthy _ (WalletDatastore r) HE Hdk)
      as (dk & a & Hd & Ha).
    assert (∃ ks, initPeerKey E (peerKey (applyOpts opts)) (Keystore r) = (inr (), ks))
      as [ks Hk].
    { rewrite initPeerKey_eq. destruct (peerKey (applyOpts opts)) as [k|].
      - rewrite (healthy_keystore E HE). eauto.
      - destruct (healthy_peer_key E HE) as [k Hk].
        unfold defaultPeerKeyBits in Hk.
        rewrite Hk, (healthy_keystore E HE). eauto. }
    eexists. rewrite Init_eq, chain_Init_eq, Hgen, (healthy_genesis E HE).
    cbv zeta. rewrite Hk, (healthy_backend E HE), Hd.
    rewrite (importInitKeys_healthy _ _ HE Himp), Ha, (healthy_config E HE).
    reflexivity.
Qed.

(** X14: when an import fails after the default key step, [Init]
    returns the import error as it is and stops: the configuration, in
    memory and on disk, is as it was and names no new default address, while
    the default key record's address already has its entry in the wallet
    datastore, which is as the failing loop left it. *)
Theorem Init_import_failure gen opts r g d store' dk w1 e w2 :
  chain_Init E gen (Datastore r) = (inr g, d) →
  initPeerKey E (peerKey (applyOpts opts)) (Keystore r) = (inr (), store') →
  backend_fault E (WalletDatastore r) = None →
  initDefaultKey E (defaultKey (applyOpts opts)) (WalletDatastore r) = (inr dk, w1) →
  importInitKeys E (initImports (applyOpts opts)) w1 = (inl e, w2) →
  Init E gen opts r =
    (inl e, mkRepo d store' w2 (Config r) (Persisted r) (ConfigWrites r)) ∧
  ∃ a, Address E dk = inr a ∧ is_Some (w2 !! a).
Proof.
  intros Hg Hk Hb Hd Hi. rewrite Init_eq, Hg. cbv zeta.
  rewrite Hk, Hb, Hd, Hi. split; [done|].
  apply initDefaultKey_inr in Hd as (_ & a & Ha & ->). exists a. split; [done|].
  destruct (importInitKeys_wallet (initImports (applyOpts opts)) (<[a:=dk]> (WalletDatastore r)))
    as (pre & post & _ & Hw).
  rewrite Hi in Hw. simpl in Hw. rewrite Hw. apply stored_mono.
  rewrite lookup_insert_eq. eauto.
Qed.

(** X15: after a run of [Init] that succeeds, on any repository and
    with any options, the key store has a ["self"] entry, the configuration
    on disk is the in-memory one, and the configured default wallet address
    has a key record in the wallet datastore. *)
Theorem Init_success_postcondition gen opts r r' :
  Init E gen opts r = (inr (), r') →
  is_Some (Keystore r' !! "self") ∧
  Persisted r' = Config r' ∧
  is_Some (WalletDatastore r' !! Wallet_DefaultAddress (Config r')).
Proof.
  intros (g & d & ks & dk & w1 & w2 & a & _ & Hk & _ & Hd & Hi & Ha & _ & ->)%Init_inr.
  simpl. split; [|split; [done|]].
  - apply initPeerKey_inr in Hk as (k & _ & _ & ->).
    rewrite lookup_insert_eq. eauto.
  - apply initDefaultKey_inr in Hd as (_ & a' & Ha' & ->).
    apply importInitKeys_inr in Hi as [-> _].
    rewrite Ha in Ha'. simplify_eq. apply stored_mono.
    rewrite lookup_insert_eq. eauto.
Qed.

End node_more.

(** ** The further properties on the simulated environment *)

Example applyOpts_calls_run :
  applyOpts (option_of <$> Sim.calls) =
  {| peerKey := Some "p2"; defaultKey := Some "d2";
     initImports := ["k1"; "k2"] |}.
Proof. reflexivity. Qed.

(** X2 on a peer key generator that fails and a supplied peer key. *)
Lemma Init_supplied_peer_key_witness :
  Init Sim.no_peer_key Sim.gen Sim.peer_p Sim.used =
    Init Sim.ok Sim.gen Sim.peer_p Sim.used ∧
  ∀ r', Init Sim.ok Sim.gen Sim.peer_p Sim.used = (inr (), r') →
        Keystore r' = <["self" := "p"]> (Keystore Sim.used).
Proof.
  apply (Init_supplied_peer_key Sim.ok Sim.gen Sim.peer_p Sim.used "p"
           (λ _ _, inl (New "no entropy"))).
  reflexivity.
Defined.

(** X3 on a wallet key generator that fails and a supplied default key
    record. *)
Lemma Init_supplied_default_key_witness :
  Init Sim.no_wallet_key Sim.gen Sim.good_imports Sim.used =
    Init Sim.ok Sim.gen Sim.good_imports Sim.used ∧
  ∀ r', Init Sim.ok Sim.gen Sim.good_imports Sim.used = (inr (), r') →
        WalletDatastore r' =
          stored Sim.ok ("d" :: initImports (applyOpts Sim.good_imports))
                 (WalletDatastore Sim.used) ∧
        Address Sim.ok "d" = inr (Wallet_DefaultAddress (Config r')).
Proof.
  apply (Init_supplied_default_key Sim.ok Sim.gen Sim.good_imports Sim.used "d"
           (λ _, inl (New "no entropy"))).
  reflexivity.
Defined.

(** X4 on the second key store entry of a used repository. *)
Lemma Init_keystore_frame_witness :
  Keystore (Init Sim.ok Sim.gen Sim.no_opts Sim.used).2 !! "backup" =
  Keystore Sim.used !! "backup".
Proof.
  apply (Init_keystore_frame Sim.ok Sim.gen Sim.no_opts Sim.used "backup").
  discriminate.
Defined.


(** X7 on a run that fails at its second import record. *)
Lemma Init_keeps_completed_stages_witness :
  Datastore (Init Sim.ok Sim.gen Sim.bad_middle Sim.fresh).2 =
    {| Blocks := ["genesis"]; Genesis := Some "genesis" |} ∧
  Genesis (Datastore (Init Sim.ok Sim.gen Sim.bad_middle Sim.fresh).2) =
    Some "genesis" ∧
  ∀ store',
    initPeerKey Sim.ok (peerKey (applyOpts Sim.bad_middle)) (Keystore Sim.fresh) =
      (inr (), store') →
    Keystore (Init Sim.ok Sim.gen Sim.bad_middle Sim.fresh).2 = store' ∧
    is_Some (store' !! "self").
Proof.
  apply (Init_keeps_completed_stages Sim.ok Sim.gen Sim.bad_middle Sim.fresh
           "genesis" {| Blocks := ["genesis"]; Genesis := Some "genesis" |}).
  reflexivity.
Defined.

(** X8 on a peer key generator that fails. *)
Lemma Init_peer_key_failure_witness :
  Init Sim.no_peer_key Sim.gen Sim.no_opts Sim.fresh =
    (inl (Wrap (New "no entropy") "failed to create peer key"),
     mkRepo {| Blocks := ["genesis"]; Genesis := Some "genesis" |}
            (Keystore Sim.fresh) (WalletDatastore Sim.fresh) (Config Sim.fresh)
            (Persisted Sim.fresh) (ConfigWrites Sim.fresh)) ∧
  ((∃ cause,
      peerKey (applyOpts Sim.no_opts) = None ∧
      GenerateKeyPair Sim.no_peer_key RSA 2048 = inl cause ∧
      Wrap (New "no entropy") "failed to create peer key" =
        Wrap cause "failed to create peer key") ∨
   (∃ cause k,
      keystore_fault Sim.no_peer_key (Keystore Sim.fresh) "self" k = Some cause ∧
      Wrap (New "no entropy") "failed to create peer key" =
        Wrap cause "failed to store private key")).
Proof.
  apply (Init_peer_key_failure Sim.no_peer_key Sim.gen Sim.no_opts Sim.fresh
           "genesis" {| Blocks := ["genesis"]; Genesis := Some "genesis" |}
           (Wrap (New "no entropy") "failed to create peer key") ∅).
  - reflexivity.
  - reflexivity.
Defined.

(** X9 on a supplied default key record that is malformed. *)
Lemma Init_default_key_failure_witness :
  Init Sim.ok Sim.gen Sim.bad_default Sim.fresh =
    (inl (Wrap (New "invalid key material") "failed to import default key"),
     mkRepo {| Blocks := ["genesis"]; Genesis := Some "genesis" |}
            {["self" := "rsa-2048-peer-key"]}
            (WalletDatastore Sim.fresh) (Config Sim.fresh)
            (Persisted Sim.fresh) (ConfigWrites Sim.fresh)) ∧
  ∃ cause,
    Wrap (New "invalid key material") "failed to import default key" =
    Wrap cause match defaultKey (applyOpts Sim.bad_default) with
               | Some _ => "failed to import default key"
               | None => "failed to create default key"
               end.
Proof.
  apply (Init_default_key_failure Sim.ok Sim.gen Sim.bad_default Sim.fresh
           "genesis" {| Blocks := ["genesis"]; Genesis := Some "genesis" |}
           {["self" := "rsa-2048-peer-key"]}
           (Wrap (New "invalid key material") "failed to import default key") ∅).
  - reflexivity.
  - reflexivity.
  - reflexivity.
  - reflexivity.
Defined.

(** X11 on a wallet that holds a key record and a list that fails at
    its second record. *)
Lemma importInitKeys_frame_witness :
  (importInitKeys Sim.ok ["k1"; ""; "k2"] (WalletDatastore Sim.used)).2 !! "f1old" =
  WalletDatastore Sim.used !! "f1old".
Proof.
  apply (importInitKeys_frame Sim.ok ["k1"; ""; "k2"] (WalletDatastore Sim.used)
           "f1old").
  compute_done.
Defined.

(** X12 on the wallet key of a used repository. *)
Lemma Init_keeps_wallet_keys_witness :
  is_Some (WalletDatastore (Init Sim.ok Sim.gen Sim.good_imports Sim.used).2
             !! "f1old").
Proof.
  apply (Init_keeps_wallet_keys Sim.ok Sim.gen Sim.good_imports Sim.used "f1old").
  exists "old". reflexivity.
Defined.

(** X13 on a used repository, for option lists with well-formed and
    with malformed records. *)
Lemma Init_succeeds_iff_witness :
  ((∃ r', Init Sim.ok Sim.gen Sim.good_imports Sim.used = (inr (), r')) ↔
   (∀ ki, defaultKey (applyOpts Sim.good_imports) = Some ki →
          well_formed Sim.ok ki) ∧
   Forall (well_formed Sim.ok) (initImports (applyOpts Sim.good_imports))) ∧
  ((∃ r', Init Sim.ok Sim.gen Sim.bad_middle Sim.used = (inr (), r')) ↔
   (∀ ki, defaultKey (applyOpts Sim.bad_middle) = Some ki →
          well_formed Sim.ok ki) ∧
   Forall (well_formed Sim.ok) (initImports (applyOpts Sim.bad_middle))).
Proof.
  split.
  - apply (Init_succeeds_iff Sim.ok Sim.gen Sim.good_imports Sim.used
             "genesis" ["genesis"; "genesis"]).
    + exact Sim_ok_healthy.
    + reflexivity.
  - apply (Init_succeeds_iff Sim.ok Sim.gen Sim.bad_middle Sim.used
             "genesis" ["genesis"; "genesis"]).
    + exact Sim_ok_healthy.
    + reflexivity.
Defined.

(** X14 on a run whose second import record is malformed. *)
Lemma Init_import_failure_witness :
  Init Sim.ok Sim.gen Sim.bad_middle Sim.fresh =
    (inl (New "invalid key material"),
     mkRepo {| Blocks := ["genesis"]; Genesis := Some "genesis" |}
            {["self" := "rsa-2048-peer-key"]}
            {["f1generated" := "generated"; "f1k1" := "k1"]}
            (Config Sim.fresh) (Persisted Sim.fresh) (ConfigWrites Sim.fresh)) ∧
  ∃ a, Address Sim.ok "generated" = inr a ∧
       is_Some (({["f1generated" := "generated"; "f1k1" := "k1"]}
                   : gmap string string) !! a).
Proof.
  apply (Init_import_failure Sim.ok Sim.gen Sim.bad_middle Sim.fresh
           "genesis" {| Blocks := ["genesis"]; Genesis := Some "genesis" |}
           {["self" := "rsa-2048-peer-key"]} "generated"
           {["f1generated" := "generated"]} (New "invalid key material")).
  - reflexivity.
  - reflexivity.
  - reflexivity.
  - reflexivity.
  - vm_compute. reflexivity.
Defined.

(** X15 on a used repository. *)
Lemma Init_success_postcondition_witness :
  is_Some (Keystore (Init Sim.ok Sim.gen Sim.good_imports Sim.used).2 !! "self") ∧
  Persisted (Init Sim.ok Sim.gen Sim.good_imports Sim.used).2 =
    Config (Init Sim.ok Sim.gen Sim.good_imports Sim.used).2 ∧
  is_Some (WalletDatastore (Init Sim.ok Sim.gen Sim.good_imports Sim.used).2
             !! Wallet_DefaultAddress
                  (Config (Init Sim.ok Sim.gen Sim.good_imports Sim.used).2)).
Proof.
  apply (Init_success_postcondition Sim.ok Sim.gen Sim.good_imports Sim.used).
  vm_compute. reflexivity.
Defined.

(** X16 on a generated default key record and a wallet that holds a
    key record. *)
Lemma initDefaultKey_returns_stored_witness :
  ∃ a, Address Sim.ok "generated" = inr a ∧
       ({["f1generated" := "generated"; "f1old" := "old"]} : gmap string string)
         !! a = Some "generated" ∧
       ∀ b, b ≠ a →
            ({["f1generated" := "generated"; "f1old" := "old"]}
               : gmap string string) !! b =
            WalletDatastore Sim.used !! b.
Proof.
  apply (initDefaultKey_returns_stored Sim.ok None (WalletDatastore Sim.used)
           "generated" {["f1generated" := "generated"; "f1old" := "old"]}).
  vm_compute. reflexivity.
Defined.
